(** * pyfred: a shallow embedding of the workflow runtime and of the CLI

    The development follows the layout of the Python package:

    - [Py]        the fragment of the Python runtime the package relies on
                  (exceptions, numbers, dynamically typed values);
    - [Json]      [json.dumps] as the package calls it;
    - [Eff]       the effects of the package (standard output, logging, the
                  file system, sub-processes) as a tree of calls;
    - [Pathlib]   pure paths;
    - the classes of [pyfred/model.py], one module per class;
    - [Workflow]  [pyfred/workflow.py];
    - [Cli]       [pyfred/cli.py].

    Definitions come first, the properties of the specification after. *)

From Stdlib Require Import ZArith QArith Floats String Ascii List Bool Lia.
From stdpp Require Import base option list strings gmap pretty.

Set Default Proof Using "Type".
Set Warnings "-register-all,-inexact-float".
#[local] Open Scope string_scope.
#[local] Open Scope Z_scope.
#[local] Open Scope list_scope.

(* ===================================================================== *)
(** * The Python runtime                                                   *)
(* ===================================================================== *)

Module Py.

(** Exceptions.  Only the class matters to the package (it catches by class
    and never inspects the message); [SystemExit] carries the exit status. *)
Inductive exn : Type :=
| ValueError (msg : string)
| TypeError (msg : string)
| AttributeError (msg : string)
| RecursionError
| RuntimeError (msg : string)
| OSError (msg : string)
| SystemExit (code : Z).

(** The outcome of evaluating an expression: a value or a raised exception. *)
Inductive result (A : Type) : Type :=
| Ok (a : A)
| Raise (e : exn).
Arguments Ok {A} a.
Arguments Raise {A} e.

#[export] Instance result_ret : MRet result := fun _ a => Ok a.
#[export] Instance result_bind : MBind result := fun _ _ f m =>
  match m with Ok a => f a | Raise e => Raise e end.
#[export] Instance result_fmap : FMap result := fun _ _ f m =>
  match m with Ok a => Ok (f a) | Raise e => Raise e end.

Definition is_Ok {A} (r : result A) : bool :=
  match r with Ok _ => true | Raise _ => false end.

(** ** Numbers

    A Python number is an [int] (unbounded) or a [float] (IEEE 754 binary64,
    which is what Rocq's primitive floats are). *)
Inductive number : Type :=
| NInt (z : Z)
| NFloat (f : float).

(** Comparison of an [int] with a [float]: CPython compares the exact
    mathematical values ([float_richcompare]), it does not round the int. *)
Definition Z_SF_compare (z : Z) (f : spec_float) : option comparison :=
  match f with
  | S754_nan => None
  | S754_infinity s => Some (if s then Gt else Lt)
  | S754_zero _ => Some (z ?= 0)
  | S754_finite s m e =>
      let v := if s then Z.neg m else Z.pos m in
      Some (if 0 <=? e then z ?= v * 2 ^ e else z * 2 ^ (- e) ?= v)
  end.

Definition num_compare (a b : number) : option comparison :=
  match a, b with
  | NInt x, NInt y => Some (x ?= y)
  | NFloat x, NFloat y => SFcompare (Prim2SF x) (Prim2SF y)
  | NInt x, NFloat y => Z_SF_compare x (Prim2SF y)
  | NFloat x, NInt y => CompOpp <$> Z_SF_compare y (Prim2SF x)
  end.

(** [a <= b]: false as soon as a NaN is involved. *)
Definition num_le (a b : number) : bool :=
  match a, b with
  | NFloat x, NFloat y => PrimFloat.leb x y
  | _, _ => match num_compare a b with
            | Some Lt | Some Eq => true
            | _ => false
            end
  end.



(** ** Classes

    The classes of [pyfred.model] that have instances, each one known by
    its own tag, and any other class, given by its name and its direct
    bases: another class is never one of the classes of the package, even
    under the same name, but it may derive from one. *)
Inductive model_class : Type :=
| C_Icon | C_Text | C_Data | C_Action | C_OutputItem | C_ScriptFilterOutput.

#[export] Instance model_class_eq_dec : EqDecision model_class.
Proof. solve_decision. Defined.

Inductive pyclass : Type :=
| ModelClass (c : model_class)
| UserClass (name : string) (bases : list pyclass).

(** [cls.__name__] *)
Definition model_class_name (c : model_class) : string :=
  match c with
  | C_Icon => "Icon"
  | C_Text => "Text"
  | C_Data => "Data"
  | C_Action => "Action"
  | C_OutputItem => "OutputItem"
  | C_ScriptFilterOutput => "ScriptFilterOutput"
  end.

Definition class_name (cls : pyclass) : string :=
  match cls with
  | ModelClass c => model_class_name c
  | UserClass name _ => name
  end.

(** [issubclass(cls, target)] for a class [target] of the package: [cls] is
    [target], or one of its bases is a subclass of [target].  The classes
    of the package do not derive from one another. *)
Fixpoint issubclass (cls : pyclass) (target : model_class) : bool :=
  match cls with
  | ModelClass c => bool_decide (c = target)
  | UserClass _ bases =>
      (fix any (l : list pyclass) : bool :=
         match l with
         | [] => false
         | b :: l' => issubclass b target || any l'
         end) bases
  end.

(** ** Dynamically typed values

    What a handler may return and what [json.dumps] walks: the built-in
    scalars and containers, and instances of classes, given by the class
    and the instance dictionary ([vars(obj)], in insertion order).
    A [str] is a sequence of code points below 256. *)
Inductive pyval : Type :=
| PyNone
| PyBool (b : bool)
| PyInt (z : Z)
| PyFloat (f : float)
| PyStr (s : string)
| PyList (l : list pyval)
| PyDict (d : list (pyval * pyval))
| PyObj (cls : pyclass) (attrs : list (string * pyval)).

Definition of_number (n : number) : pyval :=
  match n with NInt z => PyInt z | NFloat f => PyFloat f end.

Definition of_option {A} (f : A -> pyval) (o : option A) : pyval :=
  match o with Some a => f a | None => PyNone end.

(** [type(v).__name__] *)
Definition type_name (v : pyval) : string :=
  match v with
  | PyNone => "NoneType"
  | PyBool _ => "bool"
  | PyInt _ => "int"
  | PyFloat _ => "float"
  | PyStr _ => "str"
  | PyList _ => "list"
  | PyDict _ => "dict"
  | PyObj cls _ => class_name cls
  end.

(** [isinstance(v, target)] for a class [target] of the package: the class
    of [v] is a subclass of [target].  No built-in value is an instance of
    a class of the package. *)
Definition isinstance (v : pyval) (target : model_class) : bool :=
  match v with
  | PyObj cls _ => issubclass cls target
  | _ => false
  end.

Definition is_None (v : pyval) : bool :=
  match v with PyNone => true | _ => false end.

(** [vars(obj)]: the instance dictionary; the built-in values have none. *)
Definition vars (obj : pyval) : result (list (pyval * pyval)) :=
  match obj with
  | PyObj _ attrs => Ok (map (fun kv => (PyStr (fst kv), snd kv)) attrs)
  | _ => Raise (TypeError "vars() argument must have __dict__ attribute")
  end.

(** Truth value of a string and of an optional string ([None] is false). *)
Definition str_truthy (s : string) : bool := negb (String.eqb s "").

Definition opt_truthy (o : option string) : bool :=
  match o with Some s => str_truthy s | None => false end.

(** [s.upper()], on the ASCII letters (the strings it is applied to are
    the hexadecimal texts of UUIDs). *)
Definition ascii_upper (c : ascii) : ascii :=
  let n := nat_of_ascii c in
  if ((97 <=? n) && (n <=? 122))%nat then ascii_of_nat (n - 32) else c.

Fixpoint upper (s : string) : string :=
  match s with
  | EmptyString => EmptyString
  | String c s' => String (ascii_upper c) (upper s')
  end.

(** [d[k] = v] on an insertion-ordered dictionary: an existing key keeps its
    position, a new one goes last. *)
Fixpoint dict_setitem {V} (d : list (string * V)) (k : string) (v : V)
  : list (string * V) :=
  match d with
  | [] => [(k, v)]
  | (k', v') :: d' =>
      if String.eqb k' k then (k', v) :: d' else (k', v') :: dict_setitem d' k v
  end.

End Py.
Export Py.

(** What the package needs from the interpreter and cannot be derived from
    the source: [float.__repr__] (the shortest decimal text that reads back
    as the same binary64 value) and the room its stack leaves. *)
Class PyRuntime : Type := {
  float_repr : float -> string;
  (** how deeply the calls of [default] made by [json.dumps] may nest before
      the interpreter raises [RecursionError] *)
  json_depth : nat }.

(* ===================================================================== *)
(** * json.dumps                                                           *)
(* ===================================================================== *)

(** [json.dumps(obj, default=f)] with every other option left at its default:
    [ensure_ascii=True], [allow_nan=True], [skipkeys=False], no indentation,
    separators [", "] and [": "], keys in dictionary order. *)
Module Json.

(** The double quote, as a character and as a string of length one. *)
Definition dquote_char : ascii := ascii_of_nat 34.
Definition dquote : string := String dquote_char EmptyString.

(** [dquoted s] is [s] with every apostrophe turned into a double quote: it
    lets an expected JSON text be written down legibly. *)
Fixpoint dquoted (s : string) : string :=
  match s with
  | EmptyString => EmptyString
  | String c s' =>
      String (if Ascii.eqb c (ascii_of_nat 39) then dquote_char else c) (dquoted s')
  end.

Definition hex_digit (n : nat) : ascii :=
  ascii_of_nat (if Nat.ltb n 10 then 48 + n else 87 + n)%nat.

(** ['\\u{0:04x}'.format(n)] for [n < 256] *)
Definition escape_u (n : nat) : string :=
  "\u00" +:+ String (hex_digit (n / 16)) (String (hex_digit (n mod 16)) EmptyString).

(** The replacement of one character by [py_encode_basestring_ascii]: the
    characters outside [' ' .. '~'], the backslash and the double quote are
    escaped, with the short forms of [ESCAPE_DCT] where there is one. *)
Definition escape_char (c : ascii) : string :=
  let n := nat_of_ascii c in
  if Nat.eqb n 92 then "\\"
  else if Nat.eqb n 34 then "\" +:+ dquote
  else if Nat.eqb n 8 then "\b"
  else if Nat.eqb n 12 then "\f"
  else if Nat.eqb n 10 then "\n"
  else if Nat.eqb n 13 then "\r"
  else if Nat.eqb n 9 then "\t"
  else if (Nat.ltb n 32 || Nat.ltb 126 n)%bool then escape_u n
  else String c EmptyString.

Fixpoint escape (s : string) : string :=
  match s with
  | EmptyString => EmptyString
  | String c s' => escape_char c +:+ escape s'
  end.

Definition encode_basestring_ascii (s : string) : string :=
  dquote +:+ escape s +:+ dquote.

Section Encoder.
Context `{PyRuntime}.

(** [floatstr] of [json.encoder] *)
Definition floatstr (o : float) : string :=
  if negb (PrimFloat.eqb o o) then "NaN"
  else if PrimFloat.eqb o infinity then "Infinity"
  else if PrimFloat.eqb o neg_infinity then "-Infinity"
  else float_repr o.

(** The text of a dictionary key, before quoting. *)
Definition encode_key (k : pyval) : result string :=
  match k with
  | PyStr s => Ok s
  | PyFloat f => Ok (floatstr f)
  | PyBool true => Ok "true"
  | PyBool false => Ok "false"
  | PyNone => Ok "null"
  | PyInt z => Ok (pretty z)
  | _ => Raise (TypeError "keys must be str, int, float, bool or None")
  end.

(** [_iterencode], with the treatment of the values that are not JSON values
    left to [on_object]. *)
Fixpoint iterencode (on_object : pyval -> result string) (o : pyval)
  : result string :=
  match o with
  | PyStr s => Ok (encode_basestring_ascii s)
  | PyNone => Ok "null"
  | PyBool true => Ok "true"
  | PyBool false => Ok "false"
  | PyInt z => Ok (pretty z)
  | PyFloat f => Ok (floatstr f)
  | PyList l =>
      chunks ← (fix items (l : list pyval) : result (list string) :=
                  match l with
                  | [] => Ok []
                  | v :: l' =>
                      s ← iterencode on_object v;
                      rest ← items l';
                      Ok (s :: rest)
                  end) l;
      Ok ("[" +:+ String.concat ", " chunks +:+ "]")
  | PyDict d =>
      chunks ← (fix items (d : list (pyval * pyval)) : result (list string) :=
                  match d with
                  | [] => Ok []
                  | kv :: d' =>
                      k ← encode_key (fst kv);
                      s ← iterencode on_object (snd kv);
                      rest ← items d';
                      Ok ((encode_basestring_ascii k +:+ ": " +:+ s) :: rest)
                  end) d;
      Ok ("{" +:+ String.concat ", " chunks +:+ "}")
  | PyObj _ _ => on_object o
  end.

(** The encoder proper: a value that is not a JSON value is replaced by
    [default(o)], which is encoded in turn.  [depth] bounds the nesting of
    these calls (the interpreter's recursion limit). *)
Fixpoint encode (default : pyval -> result pyval) (depth : nat) (o : pyval)
  : result string :=
  iterencode
    (fun obj =>
       match depth with
       | O => Raise RecursionError
       | S depth' => o' ← default obj; encode default depth' o'
       end) o.

Definition dumps (default : pyval -> result pyval) (depth : nat) (obj : pyval)
  : result string :=
  encode default depth obj.

End Encoder.
End Json.

(* ===================================================================== *)
(** * pathlib: pure POSIX paths                                            *)
(* ===================================================================== *)

Module Pathlib.

(** A path is the tuple of its [parts]; the root, when there is one, is the
    first part (["/"], or ["//"] for exactly two leading slashes). *)
Record Path : Type := mkPath { parts : list string }.

#[export] Instance Path_eq_dec : EqDecision Path.
Proof. solve_decision. Defined.

Definition slash : ascii := ascii_of_nat 47.

(** [s.split("/")] *)
Fixpoint split_slash (s : string) : list string :=
  match s with
  | EmptyString => [EmptyString]
  | String c s' =>
      if Ascii.eqb c slash then EmptyString :: split_slash s'
      else match split_slash s' with
           | h :: t => String c h :: t
           | [] => [String c EmptyString]
           end
  end.

Fixpoint leading_slashes (s : string) : nat :=
  match s with
  | String c s' => if Ascii.eqb c slash then S (leading_slashes s') else O
  | EmptyString => O
  end.

Definition is_root (part : string) : bool :=
  (String.eqb part "/" || String.eqb part "//")%bool.

(** [Path(s)]: empty components and ["."] components are dropped. *)
Definition Path_new (s : string) : Path :=
  let names :=
    List.filter (fun x => negb (String.eqb x "" || String.eqb x ".")%bool)
                (split_slash s) in
  match leading_slashes s with
  | O => mkPath names
  | 2%nat => mkPath ("//" :: names)
  | _ => mkPath ("/" :: names)
  end.

Definition is_absolute (p : Path) : bool :=
  match parts p with
  | r :: _ => is_root r
  | [] => false
  end.

(** [p / s] and [p.joinpath(s)]: an absolute [s] replaces [p]. *)
Definition joinpath (p : Path) (s : string) : Path :=
  let q := Path_new s in
  if is_absolute q then q else mkPath (parts p ++ parts q).

(** [str(p)] *)
Definition path_str (p : Path) : string :=
  match parts p with
  | [] => "."
  | r :: rest =>
      if is_root r then r +:+ String.concat "/" rest
      else String.concat "/" (r :: rest)
  end.

Fixpoint strip_prefix (pre l : list string) : option (list string) :=
  match pre, l with
  | [], _ => Some l
  | x :: pre', y :: l' => if String.eqb x y then strip_prefix pre' l' else None
  | _ :: _, [] => None
  end.

(** [p.relative_to(other)]: the parts of [p] after those of [other], a
    [ValueError] when [other] is not a prefix of [p]. *)
Definition relative_to (p other : Path) : result Path :=
  match strip_prefix (parts other) (parts p) with
  | Some rest => Ok (mkPath rest)
  | None => Raise (ValueError "path is not in the subpath of the other path")
  end.

End Pathlib.
Export Pathlib.

Notation "p </> s" := (joinpath p s) (at level 40, left associativity).

(* ===================================================================== *)
(** * Effects                                                              *)
(* ===================================================================== *)

Module Eff.

(** The levels of [logging], in increasing order of severity. *)
Inductive level : Type := DEBUG | INFO | WARNING | ERROR | CRITICAL.

(** The arguments of a logging call, kept unformatted as [logging] does. *)
Inductive logarg : Type :=
| ArgStr (s : string)
| ArgPath (p : Path)
| ArgType (cls : string)          (* a class, as type(v) gives it *)
| ArgExn (e : exn).

(** The property list read by the CLI: its string-valued entries. *)
Definition plist : Type := gmap string string.

(** The calls the package makes on the interpreter and on the system. *)
Inductive op : Type :=
(* standard output and logging *)
| Print (s : string)
| LogBasicConfig (lvl : level)
| Log (lvl : level) (fmt : string) (args : list logarg)
(* the interpreter *)
| Repr (v : pyval)
(* process *)
| Cwd
| Home
| SysExecutable
| Uuid4
| SubprocessCall (argv : list string)
(* file system, reading *)
| Exists (p : Path)
| IsDir (p : Path)
| IsFile (p : Path)
| IsSymlink (p : Path)
| Readlink (p : Path)
| Iterdir (p : Path)
| Rglob (p : Path) (pattern : string)
| Expanduser (p : Path)
| PlistLoad (p : Path)
(* file system, writing *)
| Mkdir (p : Path) (parents exist_ok : bool)
| SymlinkTo (link target : Path)
| Unlink (p : Path) (missing_ok : bool)
| ZipOpen (file : Path)
| ZipWrite (file filename arcname : Path)
| ZipClose (file : Path).

(** What each call answers.  A call that can fail answers a [result]. *)
Definition resp (o : op) : Type :=
  match o with
  | Print _ | LogBasicConfig _ | Log _ _ _ => unit
  | Repr _ => result string
  | Cwd | Home => Path
  | SysExecutable | Uuid4 => string
  | SubprocessCall _ => result Z
  | Exists _ | IsDir _ | IsFile _ | IsSymlink _ => bool
  | Readlink _ | Expanduser _ => result Path
  | Iterdir _ | Rglob _ _ => result (list Path)
  | PlistLoad _ => result plist
  | Mkdir _ _ _ | SymlinkTo _ _ | Unlink _ _
  | ZipOpen _ | ZipWrite _ _ _ | ZipClose _ => result unit
  end.

(** The calls that change the file system (a sub-process may). *)
Definition mutates (o : op) : bool :=
  match o with
  | SubprocessCall _ | Mkdir _ _ _ | SymlinkTo _ _ | Unlink _ _
  | ZipOpen _ | ZipWrite _ _ _ | ZipClose _ => true
  | _ => false
  end.

(** A computation: it returns, raises, or makes a call and goes on with the
    answer. *)
Inductive prog (A : Type) : Type :=
| Ret (a : A)
| Throw (e : exn)
| Call (o : op) (k : resp o -> prog A).
Arguments Ret {A} a.
Arguments Throw {A} e.
Arguments Call {A} o k.

Fixpoint bind {A B} (m : prog A) (f : A -> prog B) : prog B :=
  match m with
  | Ret a => f a
  | Throw e => Throw e
  | Call o k => Call o (fun r => bind (k r) f)
  end.

#[export] Instance prog_ret : MRet prog := fun _ a => Ret a.
#[export] Instance prog_bind : MBind prog := fun _ _ f m => bind m f.

(** A call whose answer is the value itself. *)
Definition call (o : op) : prog (resp o) := Call o Ret.

(** The result of a fallible call, a raised exception propagating. *)
Definition lift {A} (r : result A) : prog A :=
  match r with Ok a => Ret a | Raise e => Throw e end.

(** [exit(code)] raises [SystemExit]. *)
Definition exit {A} (code : Z) : prog A := Throw (SystemExit code).

(** A fallible call: its exception, if any, is raised in the caller. *)
Definition call_result {A} (o : op) (cast : resp o -> result A) : prog A :=
  Call o (fun r => lift (cast r)).

Definition log (lvl : level) (fmt : string) (args : list logarg) : prog unit :=
  call (Log lvl fmt args).
Definition print (s : string) : prog unit := call (Print s).
(** [repr(v)]: it runs the [__repr__] of the class of [v] and of what [v]
    holds, so it may raise anything, [RecursionError] for one. *)
Definition repr (v : pyval) : prog string := call_result (Repr v) id.
Definition cwd : prog Path := call Cwd.
Definition home : prog Path := call Home.
Definition sys_executable : prog string := call SysExecutable.
(** [str(uuid4())] *)
Definition uuid4 : prog string := call Uuid4.
Definition subprocess_call (argv : list string) : prog Z :=
  call_result (SubprocessCall argv) id.
Definition exists_ (p : Path) : prog bool := call (Exists p).
Definition is_dir (p : Path) : prog bool := call (IsDir p).
Definition is_file (p : Path) : prog bool := call (IsFile p).
Definition is_symlink (p : Path) : prog bool := call (IsSymlink p).
Definition readlink (p : Path) : prog Path := call_result (Readlink p) id.
Definition iterdir (p : Path) : prog (list Path) := call_result (Iterdir p) id.
Definition rglob (p : Path) (pattern : string) : prog (list Path) :=
  call_result (Rglob p pattern) id.
Definition expanduser (p : Path) : prog Path := call_result (Expanduser p) id.
Definition plist_load (p : Path) : prog plist := call_result (PlistLoad p) id.
Definition mkdir (p : Path) (parents exist_ok : bool) : prog unit :=
  call_result (Mkdir p parents exist_ok) id.
Definition symlink_to (link target : Path) : prog unit :=
  call_result (SymlinkTo link target) id.
Definition unlink (p : Path) (missing_ok : bool) : prog unit :=
  call_result (Unlink p missing_ok) id.
Definition zip_open (file : Path) : prog unit := call_result (ZipOpen file) id.
Definition zip_write (file filename arcname : Path) : prog unit :=
  call_result (ZipWrite file filename arcname) id.
Definition zip_close (file : Path) : prog unit := call_result (ZipClose file) id.

(** [try: body  except <class>: handler], [handler e] being [None] when the
    clause does not match [e]. *)
Fixpoint try_except {A} (body : prog A) (handler : exn -> option (prog A))
  : prog A :=
  match body with
  | Ret a => Ret a
  | Throw e => match handler e with Some h => h | None => Throw e end
  | Call o k => Call o (fun r => try_except (k r) handler)
  end.

(** [try: body  finally: final] as the [with] statement needs it: [final]
    runs on both exits, and its own exception wins. *)
Fixpoint try_finally {A} (body : prog A) (final : prog unit) : prog A :=
  match body with
  | Ret a => _ ← final; Ret a
  | Throw e => _ ← final; Throw e
  | Call o k => Call o (fun r => try_finally (k r) final)
  end.

(** ** Running a computation

    An event is a call with its answer.  The system is a state machine that
    answers the calls; [run] gives the outcome, the events in order and the
    final state of the system. *)
Record event : Type := Ev { ev_op : op; ev_resp : resp ev_op }.

Definition system (W : Type) : Type := forall o : op, W -> resp o * W.

Fixpoint run {W A} (sys : system W) (p : prog A) (w : W)
  : result A * list event * W :=
  match p with
  | Ret a => (Ok a, [], w)
  | Throw e => (Raise e, [], w)
  | Call o k =>
      let '(r, w1) := sys o w in
      let '(res, tr, w2) := run sys (k r) w1 in
      (res, Ev o r :: tr, w2)
  end.

(** A system without state, given by its answers. *)
Definition stateless (answer : forall o : op, resp o) : system unit :=
  fun o w => (answer o, w).

(** The answers of a bare machine: nothing exists, every call succeeds, the
    home directory of [expanduser] is not needed. *)
Definition bare (o : op) : resp o :=
  match o with
  | Print _ | LogBasicConfig _ | Log _ _ _ => tt
  | Repr v => Ok ("<" +:+ type_name v +:+ ">")
  | Cwd | Home => mkPath ["/"]
  | SysExecutable => "python"
  | Uuid4 => "00000000-0000-0000-0000-000000000000"
  | SubprocessCall _ => Ok 0
  | Exists _ | IsDir _ | IsFile _ | IsSymlink _ => false
  | Readlink p | Expanduser p => Ok p
  | Iterdir _ | Rglob _ _ => Ok []
  | PlistLoad _ => Ok ∅
  | Mkdir _ _ _ | SymlinkTo _ _ | Unlink _ _
  | ZipOpen _ | ZipWrite _ _ _ | ZipClose _ => Ok tt
  end.

(** [behaves p tr res]: [p] can make the calls of [tr], get the answers of
    [tr], and end with [res].  It ranges over every system. *)
Fixpoint behaves {A} (p : prog A) (tr : list event) (res : result A) : Prop :=
  match p with
  | Ret a => tr = [] /\ res = Ok a
  | Throw e => tr = [] /\ res = Raise e
  | Call o k => exists r tr', tr = Ev o r :: tr' /\ behaves (k r) tr' res
  end.

(** [only P p]: in every behaviour of [p], every call satisfies [P]. *)
Definition only {A} (P : op -> Prop) (p : prog A) : Prop :=
  forall tr res, behaves p tr res -> Forall (fun e => P (ev_op e)) tr.

(** What a trace wrote on standard output: [print] ends the line. *)
Definition newline : string := String (ascii_of_nat 10) EmptyString.

Fixpoint stdout_of (tr : list event) : string :=
  match tr with
  | [] => ""
  | Ev (Print s) _ :: tr' => s +:+ newline +:+ stdout_of tr'
  | _ :: tr' => stdout_of tr'
  end.

Definition ops_of (tr : list event) : list op := map ev_op tr.

(** The exit status of the process for the outcome of its main function. *)
Definition exit_status {A} (res : result A) : Z :=
  match res with
  | Ok _ => 0
  | Raise (SystemExit code) => code
  | Raise _ => 1
  end.

End Eff.
Export Eff.

(* ===================================================================== *)
(** * pyfred/model.py                                                      *)
(* ===================================================================== *)

(** [class Key(Enum)]: the modifier keys. *)
Module Key.
Inductive t : Type := Cmd | Option | Control | Shift | Fn.

Definition value (k : t) : string :=
  match k with
  | Cmd => "cmd"
  | Option => "alt"
  | Control => "ctrl"
  | Shift => "shift"
  | Fn => "fn"
  end.
End Key.

(** [class Type(Enum)]: the type of output. *)
Module Type_.
Inductive t : Type := Default | File | FileSkipCheck.

Definition value (ty : t) : string :=
  match ty with
  | Default => "default"
  | File => "file"
  | FileSkipCheck => "file:skipcheck"
  end.
End Type_.

(** [class Icon] *)
Module Icon.
Record t : Type := mk { path : string; type : option string }.

Definition __post_init__ (self : t) : result unit :=
  (* if self.type and self.type not in ("fileicon", "filetype") *)
  match type self with
  | Some ty =>
      if (str_truthy ty && negb (bool_decide (ty ∈ ["fileicon"; "filetype"])))%bool
      then Raise (ValueError "if set, type must be either fileicon or filetype")
      else Ok tt
  | None => Ok tt
  end.

(** [Icon(path, type)]: the generated [__init__] stores the fields and calls
    [__post_init__]. *)
Definition new (path : string) (type : option string) : result t :=
  let self := mk path type in
  _ ← __post_init__ self; Ok self.


Definition to_py (self : t) : pyval :=
  PyObj (ModelClass C_Icon) [("path", PyStr (path self)); ("type", of_option PyStr (type self))].
End Icon.

(** [class Text] *)
Module Text.
Record t : Type := mk { copy : option string; large_type : option string }.

Definition __post_init__ (self : t) : result unit :=
  match copy self, large_type self with
  | None, None => Raise (ValueError "At least one of copy or large_type must be set")
  | _, _ => Ok tt
  end.

Definition new (copy large_type : option string) : result t :=
  let self := mk copy large_type in
  _ ← __post_init__ self; Ok self.

Definition to_py (self : t) : pyval :=
  PyObj (ModelClass C_Text) [("copy", of_option PyStr (copy self));
                ("large_type", of_option PyStr (large_type self))].
End Text.

(** [class Data]: it has no [__post_init__]. *)
Module Data.
Record t : Type := mk {
  subtitle : option string;
  arg : option string;
  icon : option Icon.t;
  valid : option bool }.

Definition new (subtitle arg : option string) (icon : option Icon.t)
  (valid : option bool) : result t :=
  Ok (mk subtitle arg icon valid).

Definition to_py (self : t) : pyval :=
  PyObj (ModelClass C_Data) [("subtitle", of_option PyStr (subtitle self));
                ("arg", of_option PyStr (arg self));
                ("icon", of_option Icon.to_py (icon self));
                ("valid", of_option PyBool (valid self))].
End Data.

(** [Union[str, list[str]]] *)
Inductive str_or_list : Type :=
| OneStr (s : string)
| StrList (l : list string).

Definition str_or_list_to_py (x : str_or_list) : pyval :=
  match x with
  | OneStr s => PyStr s
  | StrList l => PyList (map PyStr l)
  end.

(** [class Action]: it has no [__post_init__]. *)
Module Action.
Record t : Type := mk {
  text : option str_or_list;
  url : option str_or_list;
  file : option str_or_list;
  auto : option str_or_list }.

Definition new (text url file auto : option str_or_list) : result t :=
  Ok (mk text url file auto).

Definition to_py (self : t) : pyval :=
  PyObj (ModelClass C_Action) [("text", of_option str_or_list_to_py (text self));
                  ("url", of_option str_or_list_to_py (url self));
                  ("file", of_option str_or_list_to_py (file self));
                  ("auto", of_option str_or_list_to_py (auto self))].
End Action.

(** [class OutputItem] *)
Module OutputItem.

(** [Union[Key, str]], the keys of [mods] *)
Inductive mod_key : Type :=
| KeyEnum (k : Key.t)
| KeyStr (s : string).

(** [Union[Type, str]], the [type] argument *)
Inductive type_arg : Type :=
| TypeEnum (ty : Type_.t)
| TypeStr (s : string).

(** [Union[str, list[str], Action]], the [actions] field *)
Inductive actions_t : Type :=
| ActStr (s : string)
| ActList (l : list string)
| ActAction (a : Action.t).

(** The arguments of [OutputItem(...)].  [mods] is a dictionary in insertion
    order; [type] is [None] when the caller passes [None] explicitly. *)
Record kwargs : Type := mkargs {
  a_title : string;
  a_subtitle : option string;
  a_uid : option string;
  a_arg : option string;
  a_icon : option Icon.t;
  a_valid : option bool;
  a_match : option string;
  a_autocomplete : option string;
  a_mods : option (list (mod_key * Data.t));
  a_text : option Text.t;
  a_quicklook_url : option string;
  a_actions : option actions_t;
  a_type : option type_arg }.

(** The defaults of the dataclass: everything unset, [type=Type.Default]. *)
Definition defaults (title : string) : kwargs :=
  mkargs title None None None None None None None None None None None
         (Some (TypeEnum Type_.Default)).

(** The instance once constructed: [__post_init__] has replaced [type] by a
    string and the keys of [mods] by strings. *)
Record t : Type := mk {
  title : string;
  subtitle : option string;
  uid : option string;
  arg : option string;
  icon : option Icon.t;
  valid : option bool;
  match_ : option string;
  autocomplete : option string;
  mods : option (list (string * Data.t));
  text : option Text.t;
  quicklook_url : option string;
  actions : option actions_t;
  type : string }.

(** Truth value of the [type] argument: [None] and the empty string are
    false, a member of an [Enum] without [__bool__] is true. *)
Definition type_truthy (ty : option type_arg) : bool :=
  match ty with
  | None => false
  | Some (TypeStr s) => str_truthy s
  | Some (TypeEnum _) => true
  end.

(** [k.value] for a key of [mods]: a [str] has no such attribute. *)
Definition key_value (k : mod_key) : result string :=
  match k with
  | KeyEnum k => Ok (Key.value k)
  | KeyStr _ => Raise (AttributeError "'str' object has no attribute 'value'")
  end.

(** [{k.value: v for k, v in items}], filling [acc] in order *)
Fixpoint mods_comprehension (items : list (mod_key * Data.t))
  (acc : list (string * Data.t)) : result (list (string * Data.t)) :=
  match items with
  | [] => Ok acc
  | (k, v) :: items' =>
      s ← key_value k;
      mods_comprehension items' (dict_setitem acc s v)
  end.

Definition __post_init__ (a : kwargs) : result t :=
  (* if not self.type: self.type = Type.Default *)
  let ty : type_arg :=
    match a_type a with
    | Some x => if type_truthy (a_type a) then x else TypeEnum Type_.Default
    | None => TypeEnum Type_.Default
    end in
  (* if isinstance(self.type, Type): self.type = self.type.value *)
  let ty : string :=
    match ty with
    | TypeEnum e => Type_.value e
    | TypeStr s => s
    end in
  (* if self.mods is not None: self.mods = {k.value: v for ...} *)
  mods ← match a_mods a with
         | None => Ok None
         | Some d => Some <$> mods_comprehension d []
         end;
  (* if not self.title: raise ValueError *)
  if str_truthy (a_title a) then
    Ok (mk (a_title a) (a_subtitle a) (a_uid a) (a_arg a) (a_icon a)
           (a_valid a) (a_match a) (a_autocomplete a) mods (a_text a)
           (a_quicklook_url a) (a_actions a) ty)
  else Raise (ValueError "title must be set").

Definition new (a : kwargs) : result t := __post_init__ a.




Definition actions_to_py (x : actions_t) : pyval :=
  match x with
  | ActStr s => PyStr s
  | ActList l => PyList (map PyStr l)
  | ActAction a => Action.to_py a
  end.

Definition mods_to_py (d : list (string * Data.t)) : pyval :=
  PyDict (map (fun kv => (PyStr (fst kv), Data.to_py (snd kv))) d).

Definition to_py (self : t) : pyval :=
  PyObj (ModelClass C_OutputItem)
    [("title", PyStr (title self));
     ("subtitle", of_option PyStr (subtitle self));
     ("uid", of_option PyStr (uid self));
     ("arg", of_option PyStr (arg self));
     ("icon", of_option Icon.to_py (icon self));
     ("valid", of_option PyBool (valid self));
     ("match", of_option PyStr (match_ self));
     ("autocomplete", of_option PyStr (autocomplete self));
     ("mods", of_option mods_to_py (mods self));
     ("text", of_option Text.to_py (text self));
     ("quicklook_url", of_option PyStr (quicklook_url self));
     ("actions", of_option actions_to_py (actions self));
     ("type", PyStr (type self))].
End OutputItem.

(** [class ScriptFilterOutput] *)
Module ScriptFilterOutput.
Record t : Type := mk {
  rerun : option number;
  items : option (list OutputItem.t);
  variables : option (list (string * string)) }.

(** [ScriptFilterOutput.__module__] and [ScriptFilterOutput.__name__] *)
Definition module_name : string := "pyfred.model".
Definition class_name : string := model_class_name C_ScriptFilterOutput.


Definition __post_init__ (self : t) : result unit :=
  match rerun self with
  | Some r =>
      (* not 0.1 <= self.rerun <= 5 *)
      if negb (num_le (NFloat 0.1) r && num_le r (NInt 5))
      then Raise (ValueError "rerun must be between 0.1 and 5")
      else Ok tt
  | None => Ok tt
  end.

Definition new (rerun : option number) (items : option (list OutputItem.t))
  (variables : option (list (string * string))) : result t :=
  let self := mk rerun items variables in
  _ ← __post_init__ self; Ok self.

Definition variables_to_py (d : list (string * string)) : pyval :=
  PyDict (map (fun kv => (PyStr (fst kv), PyStr (snd kv))) d).

Definition to_py (self : t) : pyval :=
  PyObj (ModelClass C_ScriptFilterOutput)
    [("rerun", of_option of_number (rerun self));
     ("items", of_option (fun l => PyList (map OutputItem.to_py l)) (items self));
     ("variables", of_option variables_to_py (variables self))].
End ScriptFilterOutput.

(** [class Environment] *)
Module Environment.

(** [cast(str, ...)] checks nothing at run time: the three fields it is
    applied to hold whatever [os.environ.get] returned. *)
Record t : Type := mk {
  debug : bool;
  preferences_file : Path;
  version : option string;
  version_build : option string;
  workflow_name : option string;
  workflow_version : option string;
  workflow_bundle_id : option string;
  workflow_uid : string;
  workflow_cache : option Path;
  workflow_data : option Path }.

(** [Path(x)] for the result of [os.environ.get]: [None] is not a path, and
    [pathlib] raises [TypeError] (the message is the one of CPython up to
    3.11; later versions word it differently). *)
Definition Path_of (x : option string) : result Path :=
  match x with
  | Some s => Ok (Path_new s)
  | None => Raise (TypeError "expected str, bytes or os.PathLike object, not NoneType")
  end.

(** [Path(d).expanduser() if d else None] *)
Definition expanded_dir (d : option string) : prog (option Path) :=
  match d with
  | Some s =>
      if str_truthy s then
        p ← expanduser (Path_new s); Ret (Some p)
      else Ret None
  | None => Ret None
  end.

(** [Environment.from_env()], [environ] being [os.environ].  The arguments
    of the constructor are evaluated in the order they are written. *)
Definition from_env (environ : gmap string string) : prog (option t) :=
  if negb (opt_truthy (environ !! "alfred_version")) then
    _ ← log WARNING "Not running in an Alfred environment" [];
    Ret None
  else
    let cache_dir := environ !! "alfred_workflow_cache" in
    let data_dir := environ !! "alfred_workflow_data" in
    let debug := bool_decide (environ !! "alfred_debug" = Some "1") in
    preferences_file ← lift (Path_of (environ !! "alfred_preferences"));
    let version := environ !! "alfred_version" in
    let version_build := environ !! "alfred_version_build" in
    let workflow_name := environ !! "alfred_workflow_name" in
    let workflow_version := environ !! "alfred_workflow_version" in
    let workflow_bundle_id := environ !! "alfred_workflow_bundle_id" in
    let workflow_uid :=
      match environ !! "alfred_workflow_uid" with
      | Some s => if str_truthy s then s else ""
      | None => ""
      end in
    workflow_cache ← expanded_dir cache_dir;
    workflow_data ← expanded_dir data_dir;
    Ret (Some (mk debug preferences_file version version_build workflow_name
                  workflow_version workflow_bundle_id workflow_uid
                  workflow_cache workflow_data)).
End Environment.

(* ===================================================================== *)
(** * pyfred/workflow.py                                                   *)
(* ===================================================================== *)

Module Workflow.

(** The main function of a script filter.  It is user code: it may log,
    print, raise, and return any value. *)
Definition handler : Type :=
  Path -> list string -> option Environment.t -> prog pyval.

(** [{k: v for k, v in vars(obj).items() if v is not None}] *)
Definition vars_if_set (obj : pyval) : result pyval :=
  d ← vars obj;
  Ok (PyDict (List.filter (fun kv => negb (is_None (snd kv))) d)).

(** The two logging calls that [decorator] makes for a value of the wrong
    type. *)
Definition unexpected_type (output : pyval) : op :=
  Log ERROR "The workflow returned an unexpected type: %s, but expected %s.%s."
      [ArgType (type_name output); ArgStr ScriptFilterOutput.module_name;
       ArgStr ScriptFilterOutput.class_name].

Definition unexpected_instance (output : pyval) (text : string) : op :=
  Log DEBUG "Unexpected instance of type %s: %s"
      [ArgType (type_name output); ArgStr text].

(** The calls that [decorator] makes for a value of the wrong type, with
    their answers, [text] being the outcome of [repr(output)]: the debug
    record is logged only once [repr(output)] has returned. *)
Definition type_error_events (output : pyval) (text : result string)
  : list event :=
  [Ev (unexpected_type output) tt; Ev (Repr output) text] ++
  match text with
  | Ok s => [Ev (unexpected_instance output s) tt]
  | Raise _ => []
  end.

(** The exception that ends [decorator] for a value of the wrong type:
    the one of [exit(1)], unless [repr(output)] raised. *)
Definition type_error_exn (text : result string) : exn :=
  match text with
  | Ok _ => SystemExit 1
  | Raise e => e
  end.

Section WithRuntime.
Context `{PyRuntime}.

(** The closure [decorator] returned by [script_filter], with the variables
    it captures. *)
Definition decorator (fn : handler) (path : string) (args : list string)
  (alfred_environment : option Environment.t) : prog unit :=
  output ← fn (Path_new path) args alfred_environment;
  if negb (isinstance output C_ScriptFilterOutput) then
    _ ← call (unexpected_type output);
    (* the arguments of logging.debug are evaluated before the call *)
    text ← repr output;
    _ ← call (unexpected_instance output text);
    exit 1
  else
    text ← lift (Json.dumps vars_if_set json_depth output);
    print text.


End WithRuntime.
End Workflow.

(* ===================================================================== *)
(** * pyfred/cli.py                                                        *)
(* ===================================================================== *)

Module Cli.

(** The parsed command line ([argparse.Namespace]): the options of [link];
    [vendor] and [package] have none. *)
Record Namespace : Type := mkNamespace { relink : bool; same_path : bool }.

Definition command : Type := Namespace -> prog unit.

Definition root_check_message : string :=
  "Cannot find workflow. You need to run this command from the root of the project".

Definition _must_be_run_from_workflow_project_root (fn : command) : command :=
  fun args =>
    here ← cwd;
    let wf_dir := here </> "workflow" in
    let info_plist_path := wf_dir </> "Info.plist" in
    found ← exists_ info_plist_path;
    if negb found then
      _ ← log CRITICAL root_check_message [];
      exit 1
    else fn args.

Definition _get_sync_directory : prog Path :=
  home_dir ← home;
  let prefs_path :=
    home_dir </> "Library/Preferences/com.runningwithcrayons.Alfred-Preferences.plist" in
  found ← exists_ prefs_path;
  if negb found then Throw (ValueError "Alfred doesn't appear to be installed")
  else
    pl ← plist_load prefs_path;
    match pl !! "syncfolder" with
    | None => Throw (ValueError "Alfred's synchronisation directory not set")
    | Some syncfolder =>
        sync_dir ← expanduser (Path_new syncfolder);
        found ← exists_ sync_dir;
        if negb found then Throw (OSError "Cannot find workflow directory")
        else expanduser sync_dir
    end.

Definition _get_workflows_directory : prog Path :=
  d ← _get_sync_directory;
  Ret (d </> "Alfred.alfredpreferences" </> "workflows").

(** The [for] loop of [_zip_dir] over the entries that [rglob] yields. *)
Fixpoint zip_entries (directory output_file : Path) (entries : list Path)
  : prog unit :=
  match entries with
  | [] => Ret tt
  | entry :: entries' =>
      file ← is_file entry;
      _ ← (if file : bool then
             _ ← log DEBUG "Adding to package: %s" [ArgPath entry];
             arcname ← lift (relative_to entry directory);
             zip_write output_file entry arcname
           else Ret tt);
      zip_entries directory output_file entries'
  end.

(** [with ZipFile(output_file, "w", ZIP_DEFLATED) as zip_file: ...]: the
    archive is closed on both exits of the block.  The entries of [rglob]
    are listed in one call, before the loop runs. *)
Definition _zip_dir (directory output_file : Path) : prog unit :=
  _ ← zip_open output_file;
  _ ← try_finally
        (entries ← rglob directory "**/*";
         zip_entries directory output_file entries)
        (zip_close output_file);
  log INFO "Produced package at %s" [ArgPath output_file].

(** The [for] loop of [find_workflow_link] *)
Fixpoint first_link_to (target : Path) (wfs : list Path) : prog (option Path) :=
  match wfs with
  | [] => Ret None
  | wf :: wfs' =>
      symlink ← is_symlink wf;
      if symlink : bool then
        dest ← readlink wf;
        dest ← expanduser dest;
        if bool_decide (dest = target) then Ret (Some wf)
        else first_link_to target wfs'
      else first_link_to target wfs'
  end.

Definition find_workflow_link (target : Path) : prog (option Path) :=
  target ← expanduser target;
  workflows ← _get_workflows_directory;
  wfs ← iterdir workflows;
  first_link_to target wfs.

(** [user.workflow.<UUID>] in the workflows directory, the UUID in upper
    case *)
Definition fresh_link : prog Path :=
  workflow_id ← uuid4;
  let workflow_id := upper workflow_id in
  d ← _get_workflows_directory;
  Ret (d </> ("user.workflow." +:+ workflow_id)).

Definition _link (relink same_path : bool) (wf_dir : Path) : prog unit :=
  found ← exists_ wf_dir;
  if negb found then Throw (ValueError (path_str wf_dir +:+ " doesn't exist"))
  else
    dir ← is_dir wf_dir;
    if negb dir then Throw (ValueError (path_str wf_dir +:+ " is not a directory"))
    else
      existing_link ← find_workflow_link wf_dir;
      let create : prog unit :=
        _ ← log INFO "Creating link to workflow directory %s" [ArgPath wf_dir];
        source ← match existing_link with
                 | Some l => if same_path then Ret l else fresh_link
                 | None => fresh_link
                 end;
        _ ← log DEBUG "Creating link: %s" [ArgPath source];
        _ ← symlink_to source wf_dir;
        found ← exists_ source;
        if negb found then
          _ ← log ERROR "Error linking from %s to %s" [ArgPath source; ArgPath wf_dir];
          unlink source true
        else Ret tt in
      match existing_link with
      | Some l =>
          if negb relink then log DEBUG "Found link: %s" [ArgPath l]
          else
            _ ← log DEBUG "Removing existing link: %s" [ArgPath l];
            _ ← unlink l false;
            create
      | None => create
      end.

(** The function under a decorator carries the name of the entry point with
    [_body]; the entry point is the decorated function. *)
Definition link_body : command := fun args =>
  try_except
    (here ← cwd;
     _link (relink args) (same_path args) (here </> "workflow"))
    (fun e => match e with
              | ValueError _ =>
                  Some (_ ← log ERROR "Error creating link: %s" [ArgExn e]; exit 1)
              | _ => None
              end).

(** The list [pip_command] of [_vendor]. *)
Definition pip_command (executable : string) (root_path vendored_path : Path)
  : list string :=
  [executable; "-m"; "pip"; "install"; "-r";
   path_str root_path +:+ "/requirements.txt";
   "--target=" +:+ path_str vendored_path].

Definition _vendor (root_path : Path) : prog bool :=
  let vendored_path := root_path </> "workflow" </> "vendored" in
  _ ← mkdir vendored_path true true;
  executable ← sys_executable;
  let pip_command := pip_command executable root_path vendored_path in
  _ ← log DEBUG "Running pip: python %s" [ArgStr (String.concat " " (tl pip_command))];
  status ← subprocess_call pip_command;
  Ret (status =? 0).


Definition package_body : command := fun _args =>
  root_dir ← cwd;
  here ← cwd;
  vendored ← _vendor here;
  if negb vendored then
    _ ← log ERROR "Failed to download dependencies. Exiting" [];
    exit 1
  else
    let output := root_dir </> "dist" in
    _ ← mkdir output false true;
    _zip_dir (root_dir </> "workflow") (output </> "workflow.alfredworkflow").

Definition link : command := _must_be_run_from_workflow_project_root link_body.
Definition package : command := _must_be_run_from_workflow_project_root package_body.

(** ** Reading a trace of the CLI *)






End Cli.

(* ===================================================================== *)
(** * pyfred/tests: the fixtures of the test suite                         *)
(* ===================================================================== *)

Module Fixture.

(** [OutputItem(title="Hello Alfred!")] *)
Definition hello_item : result OutputItem.t :=
  OutputItem.new (OutputItem.defaults "Hello Alfred!").

(** [ScriptFilterOutput(items=[OutputItem(title="Hello Alfred!")])] *)
Definition hello_output : result ScriptFilterOutput.t :=
  item ← hello_item;
  ScriptFilterOutput.new None (Some [item]) None.

(** The instance that this builds. *)
Definition hello_record : ScriptFilterOutput.t :=
  ScriptFilterOutput.mk None
    (Some [OutputItem.mk "Hello Alfred!" None None None None None None None None
             None None None "default"])
    None.

(** The line [test_decorator] expects on standard output. *)
Definition hello_json : string :=
  Json.dquoted "{'items': [{'title': 'Hello Alfred!', 'type': 'default'}]}".

(** The environment that [test_decorator] sets. *)
Definition environ : gmap string string :=
  list_to_map
    [("alfred_preferences", "/Users/Crayons/Dropbox/Alfred/Alfred.alfredpreferences");
     ("alfred_preferences_localhash", "adbd4f66bc3ae8493832af61a41ee609b20d8705");
     ("alfred_theme", "alfred.theme.yosemite");
     ("alfred_theme_background", "rgba(255,255,255,0.98)");
     ("alfred_theme_subtext", "3");
     ("alfred_version", "5.0");
     ("alfred_version_build", "2058");
     ("alfred_workflow_bundleid", "com.alfredapp.googlesuggest");
     ("alfred_workflow_cache",
      "/Users/Crayons/Library/Caches/com.runningwithcrayons.Alfred/Workflow Data/com.alfredapp.googlesuggest");
     ("alfred_workflow_data",
      "/Users/Crayons/Library/Application Support/Alfred/Workflow Data/com.alfredapp.googlesuggest");
     ("alfred_workflow_name", "Google Suggest");
     ("alfred_workflow_version", "1.7");
     ("alfred_workflow_uid", "user.workflow.B0AC54EC-601C-479A-9428-01F9FD732959");
     ("alfred_debug", "1")].


(** An interpreter for the examples. *)
Definition runtime : PyRuntime :=
  {| float_repr := fun _ => "0.0"; json_depth := 1000 |}.

(** An instance of a class whose [__repr__] raises [SystemExit(0)], and a
    machine that runs it. *)
Definition quitter : pyval := PyObj (UserClass "Quitter" []) [].

Definition quitting (o : op) : resp o :=
  match o with
  | Repr _ => Raise (SystemExit 0)
  | o => bare o
  end.


(** A handler that returns [v] and does nothing else. *)
Definition returning (v : pyval) : Workflow.handler := fun _ _ _ => Ret v.

(** A machine on which the current directory [/proj] is a project root,
    the installer exits with [status], and the workflow directory holds one
    file and one directory. *)
Definition proj : Path := mkPath ["/"; "proj"].

Definition project (status : Z) (o : op) : resp o :=
  match o with
  | Cwd => proj
  | Exists _ => true
  | SubprocessCall _ => Ok status
  | Rglob d _ => Ok [d </> "workflow.py"; d </> "vendored"]
  | IsFile p => bool_decide (p = proj </> "workflow" </> "workflow.py")
  | o => bare o
  end.

(** A machine on which Alfred is installed and its workflows directory
    holds two symbolic links, the second one to the workflow of [proj]. *)
Definition workflows : Path :=
  mkPath ["/"; "Users"; "crayons"; "Sync"; "Alfred.alfredpreferences"; "workflows"].


End Fixture.

(* ===================================================================== *)
(** * Properties                                                           *)
(* ===================================================================== *)

(** ** Computations and their traces *)

Section ProgFacts.
Context {W : Type} (sys : system W).

Lemma run_bind {A B} (m : prog A) (f : A -> prog B) (w : W) :
  run sys (m ≫= f) w =
    match run sys m w with
    | (Ok a, tr, w1) =>
        let '(res, tr', w2) := run sys (f a) w1 in (res, tr ++ tr', w2)
    | (Raise e, tr, w1) => (Raise e, tr, w1)
    end.
Proof.
  revert w. induction m as [a|e|o k IH]; intros w; cbn.
  - destruct (run sys (f a) w) as [[res tr] w2]. reflexivity.
  - reflexivity.
  - destruct (sys o w) as [r w1].
    change (bind (k r) f) with (k r ≫= f). rewrite IH.
    destruct (run sys (k r) w1) as [[[a|e] tr] w2].
    + destruct (run sys (f a) w2) as [[res tr'] w3]. reflexivity.
    + reflexivity.
Qed.

Lemma run_bind_Ok {A B} (m : prog A) (f : A -> prog B) w a tr w1 :
  run sys m w = (Ok a, tr, w1) ->
  run sys (m ≫= f) w =
    let '(res, tr', w2) := run sys (f a) w1 in (res, tr ++ tr', w2).
Proof. intros E. rewrite run_bind, E. reflexivity. Qed.


Lemma run_behaves {A} (p : prog A) w res tr w' :
  run sys p w = (res, tr, w') -> behaves p tr res.
Proof.
  revert w res tr w'. induction p as [a|e|o k IH]; intros w res tr w'; cbn.
  - intros [= <- <- _]. auto.
  - intros [= <- <- _]. auto.
  - destruct (sys o w) as [r w1].
    destruct (run sys (k r) w1) as [[res1 tr1] w2] eqn:E.
    intros [= <- <- _]. exists r, tr1. split; [reflexivity|]. eapply IH, E.
Qed.

End ProgFacts.

Lemma behaves_bind {A B} (m : prog A) (f : A -> prog B) tr res :
  behaves (m ≫= f) tr res <->
  (exists e, behaves m tr (Raise e) /\ res = Raise e) \/
  (exists a tr1 tr2, behaves m tr1 (Ok a) /\ behaves (f a) tr2 res /\ tr = tr1 ++ tr2).
Proof.
  revert tr. induction m as [a|e|o k IH]; intros tr; cbn.
  - split.
    + intros Hb. right. exists a, [], tr. auto.
    + intros [(e & [_ [=]] & _)|(a' & tr1 & tr2 & [-> [= <-]] & Hb & ->)]. exact Hb.
  - split.
    + intros [-> ->]. left. eauto.
    + intros [(e' & [-> [= <-]] & ->)|(a' & tr1 & tr2 & [_ [=]] & _)]. auto.
  - split.
    + intros (r & tr' & -> & Hb).
      change (bind (k r) f) with (k r ≫= f) in Hb. apply IH in Hb.
      destruct Hb as [(e & Hb & ->)|(a & tr1 & tr2 & H1 & H2 & ->)].
      * left. exists e. split; [|reflexivity]. exists r, tr'. auto.
      * right. exists a, (Ev o r :: tr1), tr2. split; [|auto].
        exists r, tr1. auto.
    + intros [(e & (r & tr' & -> & Hb) & ->)|(a & tr1 & tr2 & (r & tr' & -> & H1) & H2 & ->)].
      * exists r, tr'. split; [reflexivity|].
        change (bind (k r) f) with (k r ≫= f). apply IH. left. eauto.
      * exists r, (tr' ++ tr2). split; [reflexivity|].
        change (bind (k r) f) with (k r ≫= f). apply IH. right.
        exists a, tr', tr2. auto.
Qed.


(** ** Numbers: the test [0.1 <= rerun <= 5] on exact values *)












(** ** pyfred/model.py: construction *)

Lemma str_truthy_true (s : string) : str_truthy s = true <-> s <> "".
Proof.
  unfold str_truthy. rewrite negb_true_iff. apply String.eqb_neq.
Qed.

Lemma str_truthy_false (s : string) : str_truthy s = false <-> s = "".
Proof.
  unfold str_truthy. rewrite negb_false_iff. apply String.eqb_eq.
Qed.

(** [ScriptFilterOutput]: the constructor accepts exactly an absent [rerun]
    and a [rerun] in the interval. *)
Lemma ScriptFilterOutput_new_absent items variables :
  ScriptFilterOutput.new None items variables =
    Ok (ScriptFilterOutput.mk None items variables).
Proof. reflexivity. Qed.




(** [Icon]: the constructor fails exactly on a non-empty [type] that is
    neither of the two tags. *)
Lemma Icon_new_Ok path ty :
  (ty = None \/ ty = Some "" \/ ty = Some "fileicon" \/ ty = Some "filetype") ->
  Icon.new path ty = Ok (Icon.mk path ty).
Proof. intros [ -> | [ -> | [ -> | -> ] ] ]; reflexivity. Qed.

Lemma Icon_new_Raise path ty :
  ty <> "" -> ty <> "fileicon" -> ty <> "filetype" ->
  Icon.new path (Some ty) =
    Raise (ValueError "if set, type must be either fileicon or filetype").
Proof.
  intros H0 H1 H2. unfold Icon.new, Icon.__post_init__.
  cbv zeta. cbn [Icon.type].
  apply str_truthy_true in H0. rewrite H0.
  rewrite bool_decide_eq_false_2; [reflexivity|].
  rewrite !elem_of_cons, elem_of_nil. intros [?|[?|[]]]; congruence.
Qed.







(** An empty title is always rejected: with [ValueError], unless the keys
    of [mods] were rejected first. *)
Lemma OutputItem_new_empty_title (a : OutputItem.kwargs) :
  OutputItem.a_title a = "" ->
  exists e, OutputItem.new a = Raise e.
Proof.
  intros Ht. apply str_truthy_false in Ht.
  unfold OutputItem.new, OutputItem.__post_init__. rewrite Ht.
  destruct (OutputItem.a_mods a) as [d|]; cbn.
  - destruct (OutputItem.mods_comprehension d []) as [m|e]; cbn; eauto.
  - eauto.
Qed.


(** The stored [type] is the wire string of the tag, [default] when the
    argument is [None] or empty, and so never empty. *)
Lemma OutputItem_new_type (a : OutputItem.kwargs) item :
  OutputItem.new a = Ok item ->
  OutputItem.type item =
    match OutputItem.a_type a with
    | Some (OutputItem.TypeEnum e) => Type_.value e
    | Some (OutputItem.TypeStr s) => if String.eqb s "" then "default" else s
    | None => "default"
    end /\
  OutputItem.type item <> "".
Proof.
  unfold OutputItem.new, OutputItem.__post_init__.
  destruct (match OutputItem.a_mods a with
            | Some d => Some <$> OutputItem.mods_comprehension d []
            | None => Ok None
            end) as [m|e]; cbn; [|discriminate].
  destruct (str_truthy (OutputItem.a_title a)); [|discriminate].
  intros [= <-]. cbn.
  destruct (OutputItem.a_type a) as [[e|s]|]; cbn.
  - split; [reflexivity|]. destruct e; discriminate.
  - unfold str_truthy. destruct (String.eqb_spec s ""); cbn; split; auto; discriminate.
  - split; [reflexivity|discriminate].
Qed.






(** ** The serializer on an icon *)

Lemma string_append_assoc (a b c : string) : (a +:+ b) +:+ c = a +:+ (b +:+ c).
Proof.
  induction a as [|x a IH]; [reflexivity|].
  change (String x ((a +:+ b) +:+ c) = String x (a +:+ (b +:+ c))).
  rewrite IH. reflexivity.
Qed.

(** The encoder unfolds whatever the depth left. *)
Lemma encode_unfold `{PyRuntime} default depth o :
  Json.encode default depth o =
    Json.iterencode
      (fun obj =>
         match depth with
         | O => Raise RecursionError
         | S depth' => o' ← default obj; Json.encode default depth' o'
         end) o.
Proof. destruct depth; reflexivity. Qed.


(** ** Environment.from_env *)

Lemma opt_truthy_true (o : option string) :
  opt_truthy o = true <-> exists s, o = Some s /\ s <> "".
Proof.
  destruct o as [s|]; cbn.
  - rewrite str_truthy_true. split; [eauto|]. intros (s' & [= <-] & Hs). exact Hs.
  - split; [discriminate|]. intros (s & [=] & _).
Qed.

(** Without a usable marker the reader warns and returns [None]: it makes
    no other call and reads no other variable. *)
Lemma from_env_not_hosted (environ : gmap string string) {W} (sys : system W) w :
  opt_truthy (environ !! "alfred_version") = false ->
  run sys (Environment.from_env environ) w =
    (Ok None,
     [Ev (Log WARNING "Not running in an Alfred environment" []) tt],
     snd (sys (Log WARNING "Not running in an Alfred environment" []) w)).
Proof.
  intros Hv. unfold Environment.from_env. rewrite Hv. cbn.
  destruct (sys (Log WARNING "Not running in an Alfred environment" []) w) as [[] w1].
  reflexivity.
Qed.


(** C5.  When [alfred_version] is absent from the process environment, the
    reader returns [None]: it does not raise and builds no record.  Its
    only effect is the warning it logs. *)
Theorem C5_absent_marker_gives_None (environ : gmap string string)
  {W} (sys : system W) (w : W) :
  environ !! "alfred_version" = None ->
  exists w',
    run sys (Environment.from_env environ) w =
      (Ok None, [Ev (Log WARNING "Not running in an Alfred environment" []) tt], w').
Proof.
  intros Hv. eexists. apply from_env_not_hosted. rewrite Hv. reflexivity.
Qed.

Lemma C5_absent_marker_gives_None_witness :
  exists w',
    run (stateless bare) (Environment.from_env ∅) tt =
      (Ok None, [Ev (Log WARNING "Not running in an Alfred environment" []) tt], w').
Proof. apply (C5_absent_marker_gives_None ∅ (stateless bare) tt). reflexivity. Defined.

(** What a returned record holds: every field comes from the variable of
    the same name, the marker is not empty and the preferences variable is
    set. *)
Lemma from_env_record (environ : gmap string string) tr e :
  behaves (Environment.from_env environ) tr (Ok (Some e)) ->
  (exists v, environ !! "alfred_version" = Some v /\ v <> "") /\
  (exists prefs, environ !! "alfred_preferences" = Some prefs /\
                 Environment.preferences_file e = Path_new prefs) /\
  Environment.debug e = bool_decide (environ !! "alfred_debug" = Some "1") /\
  Environment.version e = environ !! "alfred_version" /\
  Environment.version_build e = environ !! "alfred_version_build" /\
  Environment.workflow_name e = environ !! "alfred_workflow_name" /\
  Environment.workflow_version e = environ !! "alfred_workflow_version" /\
  Environment.workflow_bundle_id e = environ !! "alfred_workflow_bundle_id" /\
  Environment.workflow_uid e = default "" (environ !! "alfred_workflow_uid").
Proof.
  unfold Environment.from_env.
  destruct (opt_truthy (environ !! "alfred_version")) eqn:Hv; cbn [negb].
  - destruct (environ !! "alfred_preferences") as [prefs|] eqn:Hp; cbn.
    + intros Hb.
      apply behaves_bind in Hb as [(x & _ & [=])|(cache & tr1 & tr2 & _ & Hb & _)].
      apply behaves_bind in Hb as [(x & _ & [=])|(data & tr3 & tr4 & _ & Hb & _)].
      cbn in Hb. destruct Hb as [_ [= ->]]. cbn.
      apply opt_truthy_true in Hv.
      repeat split; eauto.
      destruct (environ !! "alfred_workflow_uid") as [s|]; cbn; [|reflexivity].
      destruct (str_truthy s) eqn:Hs; [reflexivity|].
      apply str_truthy_false in Hs. congruence.
    + intros [_ [=]].
  - cbn. intros (r & tr' & _ & _ & [=]).
Qed.

(** The reader does return a record when the marker is not empty, the
    preferences variable is set and [expanduser] succeeds on the cache and
    data directories, whatever the other variables are. *)
Lemma from_env_returns (environ : gmap string string) {W} (sys : system W) (w : W) :
  opt_truthy (environ !! "alfred_version") = true ->
  is_Some (environ !! "alfred_preferences") ->
  (forall p w0, exists q, fst (sys (Expanduser p) w0) = Ok q) ->
  exists e tr w',
    run sys (Environment.from_env environ) w = (Ok (Some e), tr, w').
Proof.
  intros Hv [prefs Hp] Hexp.
  assert (Hdir : forall d w0, exists p tr w1,
            run sys (Environment.expanded_dir d) w0 = (Ok p, tr, w1)).
  { intros [d|] w0; cbn; [|eauto].
    destruct (str_truthy d); cbn; [|eauto].
    destruct (Hexp (Path_new d) w0) as [q Hq].
    destruct (sys (Expanduser (Path_new d)) w0) as [r w1]. cbn in Hq. subst r.
    cbn. eauto. }
  unfold Environment.from_env. rewrite Hv, Hp. cbn [negb Environment.Path_of lift].
  cbn [mbind prog_bind bind].
  destruct (Hdir (environ !! "alfred_workflow_cache") w) as (c & tr1 & w1 & Hc).
  rewrite (run_bind_Ok _ _ _ _ _ _ _ Hc).
  destruct (Hdir (environ !! "alfred_workflow_data") w1) as (d & tr2 & w2 & Hd).
  rewrite (run_bind_Ok _ _ _ _ _ _ _ Hd).
  cbn. eauto.
Qed.

(** C6.  In an environment where the marker is present, every record that
    the reader returns has [debug] true exactly when [alfred_debug] is set
    to the string ["1"]: any other value, and no value, give false.  And
    the reader does return such a record, whatever [alfred_debug] is, as
    soon as the marker is not empty, the preferences variable is set and
    [expanduser] succeeds. *)
Theorem C6_debug_iff_alfred_debug_is_1 (environ : gmap string string)
  {W} (sys : system W) (w : W) :
  is_Some (environ !! "alfred_version") ->
  (forall e tr w',
     run sys (Environment.from_env environ) w = (Ok (Some e), tr, w') ->
     Environment.debug e = true <-> environ !! "alfred_debug" = Some "1")
  /\ (opt_truthy (environ !! "alfred_version") = true ->
      is_Some (environ !! "alfred_preferences") ->
      (forall p w0, exists q, fst (sys (Expanduser p) w0) = Ok q) ->
      exists e tr w',
        run sys (Environment.from_env environ) w = (Ok (Some e), tr, w')
        /\ Environment.debug e = bool_decide (environ !! "alfred_debug" = Some "1")).
Proof.
  intros _. split.
  - intros e tr w' Hrun. apply run_behaves, from_env_record in Hrun.
    destruct Hrun as (_ & _ & -> & _). apply bool_decide_eq_true.
  - intros Hv Hp Hexp.
    destruct (from_env_returns environ sys w Hv Hp Hexp) as (e & tr & w' & Hrun).
    exists e, tr, w'. split; [exact Hrun|].
    apply run_behaves, from_env_record in Hrun. tauto.
Qed.

(** The environment of the test suite, where [alfred_debug] is ["1"], and
    the same environment with [alfred_debug] set to ["true"]: the record is
    returned in both, with [debug] true in the first and false in the
    second. *)
Lemma C6_debug_iff_alfred_debug_is_1_witness :
  (exists e tr w',
      run (stateless bare) (Environment.from_env Fixture.environ) tt =
        (Ok (Some e), tr, w')
      /\ Environment.debug e = bool_decide (Fixture.environ !! "alfred_debug" = Some "1")
      /\ Environment.debug e = true
      /\ (Environment.debug e = true <-> Fixture.environ !! "alfred_debug" = Some "1"))
  /\ (exists e tr w',
        run (stateless bare)
            (Environment.from_env (<["alfred_debug" := "true"]> Fixture.environ)) tt =
          (Ok (Some e), tr, w')
        /\ Environment.debug e =
             bool_decide (<["alfred_debug" := "true"]> Fixture.environ !! "alfred_debug"
                          = Some "1")
        /\ Environment.debug e = false
        /\ (Environment.debug e = true <->
            <["alfred_debug" := "true"]> Fixture.environ !! "alfred_debug" = Some "1")).
Proof.
  split.
  - destruct (C6_debug_iff_alfred_debug_is_1 Fixture.environ (stateless bare) tt)
      as [Hiff Hret]; [exists "5.0"; vm_compute; reflexivity|].
    destruct Hret as (e & tr & w' & Hrun & Hd).
    + vm_compute. reflexivity.
    + eexists. vm_compute. reflexivity.
    + intros p w0. exists p. reflexivity.
    + exists e, tr, w'. split; [exact Hrun|]. split; [exact Hd|].
      split; [rewrite Hd; vm_compute; reflexivity|]. exact (Hiff e tr w' Hrun).
  - destruct (C6_debug_iff_alfred_debug_is_1
                (<["alfred_debug" := "true"]> Fixture.environ) (stateless bare) tt)
      as [Hiff Hret]; [exists "5.0"; vm_compute; reflexivity|].
    destruct Hret as (e & tr & w' & Hrun & Hd).
    + vm_compute. reflexivity.
    + eexists. vm_compute. reflexivity.
    + intros p w0. exists p. reflexivity.
    + exists e, tr, w'. split; [exact Hrun|]. split; [exact Hd|].
      split; [rewrite Hd; vm_compute; reflexivity|]. exact (Hiff e tr w' Hrun).
Defined.





(** ** json.dumps *)

(** Induction on values, through lists and dictionaries. *)
Lemma pyval_nested_ind (P : pyval -> Prop) :
  P PyNone ->
  (forall b, P (PyBool b)) ->
  (forall z, P (PyInt z)) ->
  (forall f, P (PyFloat f)) ->
  (forall s, P (PyStr s)) ->
  (forall l, Forall P l -> P (PyList l)) ->
  (forall d, Forall (fun kv => P (snd kv)) d -> P (PyDict d)) ->
  (forall cls attrs, P (PyObj cls attrs)) ->
  forall v, P v.
Proof.
  intros HN HB HI HF HS HL HD HO.
  fix IH 1. intros [|b|z|f|s|l|d|cls attrs].
  - exact HN.
  - apply HB.
  - apply HI.
  - apply HF.
  - apply HS.
  - apply HL. induction l as [|v l IHl]; constructor; [apply IH|exact IHl].
  - apply HD. induction d as [|[k v] d IHd]; constructor; [apply IH|exact IHd].
  - apply HO.
Qed.

Section EncoderFacts.
Context `{PyRuntime}.

(** The encoder only depends on what [on_object] does with the objects it
    meets: a more successful treatment of objects gives the same text. *)
Lemma iterencode_mono (f g : pyval -> result string) :
  (forall o s, f o = Ok s -> g o = Ok s) ->
  forall v s, Json.iterencode f v = Ok s -> Json.iterencode g v = Ok s.
Proof.
  intros Hfg. induction v as [|b|z|x|s0|l IHl|d IHd|cls attrs] using pyval_nested_ind;
    intros s; cbn [Json.iterencode]; auto.
  - (* list *)
    set (itf := fix items (l : list pyval) : result (list string) :=
           match l with
           | [] => Ok []
           | v :: l' => s ← Json.iterencode f v; rest ← items l'; Ok (s :: rest)
           end).
    set (itg := fix items (l : list pyval) : result (list string) :=
           match l with
           | [] => Ok []
           | v :: l' => s ← Json.iterencode g v; rest ← items l'; Ok (s :: rest)
           end).
    assert (Hit : forall chunks, itf l = Ok chunks -> itg l = Ok chunks).
    { induction IHl as [|v l Hv _ IH]; intros chunks; cbn; [auto|].
      destruct (Json.iterencode f v) as [sv|] eqn:Ev; cbn; [|discriminate].
      rewrite (Hv _ eq_refl). cbn.
      destruct (itf l) as [rest|] eqn:Er; cbn; [|discriminate].
      rewrite (IH _ eq_refl). cbn. auto. }
    destruct (itf l) as [chunks|] eqn:Ec; cbn; [|discriminate].
    rewrite (Hit _ eq_refl). cbn. auto.
  - (* dict *)
    set (itf := fix items (d : list (pyval * pyval)) : result (list string) :=
           match d with
           | [] => Ok []
           | kv :: d' =>
               k ← Json.encode_key (fst kv);
               s ← Json.iterencode f (snd kv);
               rest ← items d';
               Ok ((Json.encode_basestring_ascii k +:+ ": " +:+ s) :: rest)
           end).
    set (itg := fix items (d : list (pyval * pyval)) : result (list string) :=
           match d with
           | [] => Ok []
           | kv :: d' =>
               k ← Json.encode_key (fst kv);
               s ← Json.iterencode g (snd kv);
               rest ← items d';
               Ok ((Json.encode_basestring_ascii k +:+ ": " +:+ s) :: rest)
           end).
    assert (Hit : forall chunks, itf d = Ok chunks -> itg d = Ok chunks).
    { induction IHd as [|kv d Hv _ IH]; intros chunks; cbn; [auto|].
      destruct (Json.encode_key (fst kv)) as [k|]; cbn; [|discriminate].
      destruct (Json.iterencode f (snd kv)) as [sv|] eqn:Ev; cbn; [|discriminate].
      rewrite (Hv _ eq_refl). cbn.
      destruct (itf d) as [rest|] eqn:Er; cbn; [|discriminate].
      rewrite (IH _ eq_refl). cbn. auto. }
    destruct (itf d) as [chunks|] eqn:Ec; cbn; [|discriminate].
    rewrite (Hit _ eq_refl). cbn. auto.
Qed.

(** More room on the stack never changes a text that was produced. *)
Lemma encode_S default depth v s :
  Json.encode default depth v = Ok s -> Json.encode default (S depth) v = Ok s.
Proof.
  revert v s. induction depth as [|n IH]; intros v s.
  - rewrite !encode_unfold. apply iterencode_mono. discriminate.
  - rewrite (encode_unfold default (S n)), (encode_unfold default (S (S n))).
    apply iterencode_mono. intros o s'.
    destruct (default o) as [o'|]; cbn; [|discriminate]. apply IH.
Qed.

Lemma encode_le default n m v s :
  (n <= m)%nat ->
  Json.encode default n v = Ok s -> Json.encode default m v = Ok s.
Proof.
  induction 1 as [|m _ IH]; [auto|]. intros Hn. apply encode_S, IH, Hn.
Qed.

End EncoderFacts.

(** ** pyfred/workflow.py *)

Lemma stdout_of_app (tr1 tr2 : list event) :
  stdout_of (tr1 ++ tr2) = stdout_of tr1 +:+ stdout_of tr2.
Proof.
  induction tr1 as [|[o r] tr1 IH]; [reflexivity|].
  destruct o; cbn [app stdout_of]; try exact IH.
  rewrite IH, !string_append_assoc. reflexivity.
Qed.

Lemma string_append_nil_r (s : string) : s +:+ "" = s.
Proof.
  induction s as [|c s IH]; [reflexivity|].
  change (String c (s +:+ "") = String c s). rewrite IH. reflexivity.
Qed.

Section WorkflowFacts.
Context `{PyRuntime}.

(** What [decorator] does once the handler has returned a value that is
    not an instance of [ScriptFilterOutput]: it logs the error, evaluates
    [repr(output)], and either logs the debug record and exits with status
    1, or lets the exception of [repr(output)] through. *)
Lemma decorator_type_error (fn : Workflow.handler) (path : string)
  (args : list string) (env : option Environment.t)
  {W} (sys : system W) (w w1 : W) (output : pyval) (tr_h : list event) :
  isinstance output C_ScriptFilterOutput = false ->
  run sys (fn (Path_new path) args env) w = (Ok output, tr_h, w1) ->
  exists text w2,
    run sys (Workflow.decorator fn path args env) w =
      (Raise (Workflow.type_error_exn text),
       tr_h ++ Workflow.type_error_events output text, w2).
Proof.
  intros Hty Hrun. unfold Workflow.decorator.
  rewrite (run_bind_Ok _ _ _ _ _ _ _ Hrun). rewrite Hty.
  unfold repr, call_result, call, exit. cbn [negb mbind prog_bind bind run].
  destruct (sys (Workflow.unexpected_type output) w1) as [[] w2].
  destruct (sys (Repr output) w2) as [text w3].
  exists text. destruct text as [s|e]; cbn [id lift bind run].
  - destruct (sys (Workflow.unexpected_instance output s) w3) as [[] w4].
    exists w4. reflexivity.
  - exists w3. reflexivity.
Qed.

(** C3, amended.  When the handler returns a value that is not an instance
    of [ScriptFilterOutput] (an instance of a subclass is one), the wrapper
    logs an error that carries the type of the value and then evaluates
    [repr(output)] for its debug record.  When that returns, it logs the
    record and exits with status 1; when that raises, the exception ends
    the call, with a non-zero exit status unless it is [SystemExit(0)].
    In both cases the wrapper makes no call to [print]: it writes nothing
    on standard output. *)
Theorem C3_wrong_return_type_aborts (fn : Workflow.handler) (path : string)
  (args : list string) (env : option Environment.t)
  {W} (sys : system W) (w w1 : W) (output : pyval) (tr_h : list event) :
  isinstance output C_ScriptFilterOutput = false ->
  run sys (fn (Path_new path) args env) w = (Ok output, tr_h, w1) ->
  exists text w2,
    run sys (Workflow.decorator fn path args env) w =
      (Raise (Workflow.type_error_exn text),
       tr_h ++ Workflow.type_error_events output text, w2)
    /\ Ev (Log ERROR "The workflow returned an unexpected type: %s, but expected %s.%s."
               [ArgType (type_name output); ArgStr "pyfred.model";
                ArgStr "ScriptFilterOutput"]) tt
         ∈ Workflow.type_error_events output text
    /\ stdout_of (Workflow.type_error_events output text) = ""
    /\ stdout_of (tr_h ++ Workflow.type_error_events output text) = stdout_of tr_h
    /\ (is_Ok text = true ->
        Workflow.type_error_exn text = SystemExit 1)
    /\ (text <> Raise (SystemExit 0) ->
        exit_status (@Raise unit (Workflow.type_error_exn text)) <> 0).
Proof.
  intros Hty Hrun.
  destruct (decorator_type_error fn path args env sys w w1 output tr_h Hty Hrun)
    as (text & w2 & Hdec).
  exists text, w2. split; [exact Hdec|].
  split; [unfold Workflow.type_error_events; cbn [app]; left|].
  assert (Hout : stdout_of (Workflow.type_error_events output text) = "")
    by (destruct text; reflexivity).
  split; [exact Hout|]. split; [|split].
  - rewrite stdout_of_app, Hout. apply string_append_nil_r.
  - destruct text; [reflexivity|discriminate].
  - intros Hne. destruct text as [s|e]; cbn; [discriminate|].
    destruct e as [| | | | | |code]; cbn; try discriminate.
    intros ->. apply Hne. reflexivity.
Qed.

End WorkflowFacts.

(** A handler that returns the integer 42: the wrapper logs the two
    records and exits with status 1. *)
Lemma C3_wrong_return_type_aborts_witness :
  run (stateless bare)
      (@Workflow.decorator Fixture.runtime (Fixture.returning (PyInt 42))
         "workflow.py" [] None) tt =
    (Raise (SystemExit 1),
     [Ev (Log ERROR "The workflow returned an unexpected type: %s, but expected %s.%s."
              [ArgType "int"; ArgStr "pyfred.model"; ArgStr "ScriptFilterOutput"]) tt;
      Ev (Repr (PyInt 42)) (Ok "<int>");
      Ev (Log DEBUG "Unexpected instance of type %s: %s" [ArgType "int"; ArgStr "<int>"])
         tt],
     tt)
  /\ (exists text w2,
      run (stateless bare)
          (@Workflow.decorator Fixture.runtime (Fixture.returning (PyInt 42))
             "workflow.py" [] None) tt =
        (Raise (Workflow.type_error_exn text),
         [] ++ Workflow.type_error_events (PyInt 42) text, w2)
      /\ Ev (Log ERROR "The workflow returned an unexpected type: %s, but expected %s.%s."
                 [ArgType (type_name (PyInt 42)); ArgStr "pyfred.model";
                  ArgStr "ScriptFilterOutput"]) tt
           ∈ Workflow.type_error_events (PyInt 42) text
      /\ stdout_of (Workflow.type_error_events (PyInt 42) text) = ""
      /\ stdout_of ([] ++ Workflow.type_error_events (PyInt 42) text) = stdout_of []
      /\ (is_Ok text = true ->
          Workflow.type_error_exn text = SystemExit 1)
      /\ (text <> Raise (SystemExit 0) ->
          exit_status (@Raise unit (Workflow.type_error_exn text)) <> 0)).
Proof.
  split; [vm_compute; reflexivity|].
  apply (@C3_wrong_return_type_aborts Fixture.runtime (Fixture.returning (PyInt 42))
           "workflow.py" [] None unit (stateless bare) tt tt (PyInt 42) []).
  - reflexivity.
  - reflexivity.
Defined.

(** C3, as the specification states it, fails for a value whose [__repr__]
    raises [SystemExit(0)]: the value is not a [ScriptFilterOutput], the
    wrapper logs the error and evaluates [repr(output)], and the process
    ends with status 0. *)
Lemma C3_counterexample_repr_exits :
  isinstance Fixture.quitter C_ScriptFilterOutput = false
  /\ run (stateless Fixture.quitting)
         (@Workflow.decorator Fixture.runtime (Fixture.returning Fixture.quitter)
            "workflow.py" [] None) tt =
       (Raise (SystemExit 0),
        [Ev (Workflow.unexpected_type Fixture.quitter) tt;
         Ev (Repr Fixture.quitter) (Raise (SystemExit 0))], tt)
  /\ exit_status (@Raise unit (SystemExit 0)) = 0.
Proof. split; [reflexivity|]. split; reflexivity. Qed.

Section WorkflowHello.
Context `{PyRuntime}.

(** C1.  When the handler returns
    [ScriptFilterOutput(items=[OutputItem(title="Hello Alfred!")])], the
    wrapper returns normally and the one call it makes after the handler
    has returned is [print] of the text
    [{"items": [{"title": "Hello Alfred!", "type": "default"}]}]: one line
    on standard output, in which the unset fields ([rerun], [variables],
    and every optional field of the item) are left out and the unset type
    reads [default]. *)
Theorem C1_hello_item_prints_one_json_line (fn : Workflow.handler) (path : string)
  (args : list string) (env : option Environment.t)
  {W} (sys : system W) (w w1 : W) (out : ScriptFilterOutput.t) (tr_h : list event) :
  (2 <= json_depth)%nat ->
  Fixture.hello_output = Ok out ->
  run sys (fn (Path_new path) args env) w =
    (Ok (ScriptFilterOutput.to_py out), tr_h, w1) ->
  exists w2,
    run sys (Workflow.decorator fn path args env) w =
      (Ok tt, tr_h ++ [Ev (Print Fixture.hello_json) tt], w2)
    /\ stdout_of (tr_h ++ [Ev (Print Fixture.hello_json) tt]) =
         stdout_of tr_h +:+ Fixture.hello_json +:+ newline.
Proof.
  intros Hdepth Hout Hrun.
  vm_compute in Hout. injection Hout as <-.
  assert (Hjson : Json.dumps Workflow.vars_if_set json_depth
                    (ScriptFilterOutput.to_py
                       (ScriptFilterOutput.mk None
                          (Some [OutputItem.mk "Hello Alfred!" None None None None None
                                   None None None None None None "default"]) None))
                  = Ok Fixture.hello_json).
  { unfold Json.dumps. apply (encode_le _ 2 _ _ _ Hdepth). reflexivity. }
  unfold Workflow.decorator.
  rewrite (run_bind_Ok _ _ _ _ _ _ _ Hrun).
  cbn [isinstance issubclass ScriptFilterOutput.to_py negb].
  replace (bool_decide (C_ScriptFilterOutput = C_ScriptFilterOutput))
    with true by reflexivity.
  cbn [negb]. rewrite Hjson.
  rewrite run_bind. unfold print, call. cbn [lift run app].
  destruct (sys (Print Fixture.hello_json) w1) as [[] w2].
  exists w2. split; [reflexivity|].
  rewrite stdout_of_app. reflexivity.
Qed.

End WorkflowHello.

Lemma C1_hello_item_prints_one_json_line_witness :
  exists w2,
    run (stateless bare)
        (@Workflow.decorator Fixture.runtime
           (Fixture.returning (ScriptFilterOutput.to_py Fixture.hello_record))
           "workflow.py" [] None) tt =
      (Ok tt, [] ++ [Ev (Print Fixture.hello_json) tt], w2)
    /\ stdout_of ([] ++ [Ev (Print Fixture.hello_json) tt]) =
         stdout_of [] +:+ Fixture.hello_json +:+ newline.
Proof.
  apply (@C1_hello_item_prints_one_json_line Fixture.runtime
           (Fixture.returning (ScriptFilterOutput.to_py Fixture.hello_record))
           "workflow.py" [] None unit (stateless bare) tt tt Fixture.hello_record []).
  - vm_compute. lia.
  - vm_compute. reflexivity.
  - reflexivity.
Defined.

(** ** pyfred/cli.py: the root check *)


(** In a project root the decorator makes its two calls and then runs the
    decorated function. *)
Lemma root_check_passes (fn : Cli.command) (args : Cli.Namespace)
  {W} (sys : system W) (w w1 w2 : W) (here : Path) :
  sys Cwd w = (here, w1) ->
  sys (Exists (here </> "workflow" </> "Info.plist")) w1 = (true, w2) ->
  run sys (Cli._must_be_run_from_workflow_project_root fn args) w =
    let '(res, tr, w3) := run sys (fn args) w2 in
    (res, Ev Cwd here :: Ev (Exists (here </> "workflow" </> "Info.plist")) true :: tr, w3).
Proof.
  intros Hcwd Hex. unfold Cli._must_be_run_from_workflow_project_root.
  cbn -[joinpath]. rewrite Hcwd. cbn -[joinpath]. rewrite Hex. cbn -[joinpath].
  destruct (run sys (fn args) w2) as [[res tr] w3]. reflexivity.
Qed.



(** ** pyfred/cli.py: vendoring and packaging *)

Lemma only_Ret {A} P (a : A) : only P (Ret a).
Proof. intros tr res [-> _]. constructor. Qed.


Lemma only_Call {A} (P : op -> Prop) o (k : resp o -> prog A) :
  P o -> (forall r, only P (k r)) -> only P (Call o k).
Proof.
  intros Ho Hk tr res (r & tr' & -> & Hb). constructor; [exact Ho|].
  eapply Hk, Hb.
Qed.





Lemma only_call (P : op -> Prop) o : P o -> only P (call o).
Proof. intros Ho. apply only_Call; [exact Ho|]. intros r. apply only_Ret. Qed.










(** ** Runs of [package] on a machine that meets no obstacle *)







(** The two runs on the machine of the examples: with an installer that
    fails, and with one that succeeds. *)
Lemma package_examples :
  (let '(res, tr, _) := run (stateless (Fixture.project 1))
                            (Cli.package (Cli.mkNamespace false false)) tt in
   res = Raise (SystemExit 1) /\
   List.filter mutates (ops_of tr) =
     [Mkdir (Fixture.proj </> "workflow" </> "vendored") true true;
      SubprocessCall
        (Cli.pip_command "python" Fixture.proj
           (Fixture.proj </> "workflow" </> "vendored"))])
  /\ (let '(res, tr, _) := run (stateless (Fixture.project 0))
                               (Cli.package (Cli.mkNamespace false false)) tt in
      res = Ok tt /\
      List.filter mutates (ops_of tr) =
        [Mkdir (Fixture.proj </> "workflow" </> "vendored") true true;
         SubprocessCall
           (Cli.pip_command "python" Fixture.proj
              (Fixture.proj </> "workflow" </> "vendored"));
         Mkdir (Fixture.proj </> "dist") false true;
         ZipOpen (Fixture.proj </> "dist" </> "workflow.alfredworkflow");
         ZipWrite (Fixture.proj </> "dist" </> "workflow.alfredworkflow")
                  (Fixture.proj </> "workflow" </> "workflow.py")
                  (mkPath ["workflow.py"]);
         ZipClose (Fixture.proj </> "dist" </> "workflow.alfredworkflow")]).
Proof. split; vm_compute; split; reflexivity. Qed.

(* ===================================================================== *)
(** * Further properties of the package                                   *)
(* ===================================================================== *)

(** ** pyfred/model.py *)





(** ** pyfred/workflow.py *)


Section WorkflowMore.
Context `{PyRuntime}.




End WorkflowMore.




(** ** pyfred/cli.py *)


















